(** * sanitizer_symbolizer.h: AddressInfo, DataInfo and the Symbolizer base class

    A shallow embedding of lib/sanitizer_common/sanitizer_symbolizer.h.

    - [uptr] values and [char *] pointers are natural numbers ([N]); the null
      pointer is [0].  [int] fields are integers ([Z]).
    - The C++ methods that mutate [this] are state-passing functions that
      return the new record.
    - Methods that call the internal allocator run in a small state-and-error
      monad over the memory of C strings ([M]); [None] is a crash of the
      process (a failed CHECK or a wild read). *)

From Stdlib Require Import NArith ZArith String List Lia.
From stdpp Require Import base option gmap fin_maps.

Local Open Scope N_scope.

(** ** Machine words and pointers *)

Abbreviation uptr := N.
Abbreviation ptr := N.
Definition NULL : ptr := 0.

(** ** Memory of C strings *)

(** One NUL-terminated string object, identified by the address of its first
    character.  [internal] tells whether the object was handed out by the
    internal allocator (and so may be given to [InternalFree]). *)
Record block : Type := Block { contents : string; internal : bool }.

Abbreviation Mem := (gmap N block).

(** State-and-error monad over the memory. *)
Definition M (A : Type) : Type := Mem -> option (A * Mem).

Definition ret {A : Type} (a : A) : M A := fun m => Some (a, m).

Definition bind {A B : Type} (c : M A) (k : A -> M B) : M B :=
  fun m => match c m with
           | Some (a, m') => k a m'
           | None => None
           end.

Declare Scope mem_scope.
Delimit Scope mem_scope with mem.
Notation "x <- c1 ;; c2" := (bind c1 (fun x => c2))
  (at level 100, c1 at next level, right associativity) : mem_scope.
Notation "c1 ;; c2" := (bind c1 (fun _ => c2))
  (at level 100, right associativity) : mem_scope.

(** The string a [const char *] points to; a null or unmapped pointer cannot
    be read. *)
Definition read_string (m : Mem) (p : ptr) : option string :=
  if p =? NULL then None else contents <$> m !! p.

(** Modelled from the spec: [InternalFree] is declared in
    sanitizer_allocator_internal.h, which is not part of the sources at hand.
    The record's strings are "either null (unset) or owned" and [Clear]
    "releases them"; a second [Clear] must be "safe (no double-free, no
    crash)".  So freeing null does nothing, freeing a live block of the
    internal allocator releases it, and anything else (a block already
    released, a pointer the allocator never returned) is a crash. *)
Definition InternalFree (p : ptr) : M unit := fun m =>
  if p =? NULL then Some (tt, m)
  else match m !! p with
       | Some b => if internal b then Some (tt, delete p m) else None
       | None => None
       end.

(** The address of the next block of the internal allocator: not null and not
    the address of any live object. *)
Definition InternalAlloc_addr (m : Mem) : ptr := fresh ({[NULL]} ∪ dom m).

(** Modelled from the spec: [internal_strdup] is declared in sanitizer_libc.h,
    which is not part of the sources at hand.  Strings held by a record are
    "owned, arena-or-dedicated-allocator-backed, null-terminated strings
    exclusively owned by this record": the call reads the string at [s] and
    returns a new block of the internal allocator holding the same
    characters. *)
Definition internal_strdup (s : ptr) : M ptr := fun m =>
  match read_string m s with
  | Some str =>
      let p := InternalAlloc_addr m in
      Some (p, <[p := Block str true]> m)
  | None => None
  end.

(** ** struct AddressInfo *)

Module AddressInfo.

Record t : Type := mk {
  address : uptr;
  module : ptr;
  module_offset : uptr;
  function : ptr;
  file : ptr;
  line : Z;
  column : Z
}.

(** [internal_memset(this, 0, sizeof(AddressInfo))]: every byte of the
    object becomes zero, whatever it held before. *)
Definition internal_memset_0 (this : t) : t :=
  {| address := 0; module := NULL; module_offset := 0;
     function := NULL; file := NULL; line := 0%Z; column := 0%Z |}.

(** [AddressInfo()]; [uninit] is the indeterminate object the constructor
    body starts from. *)
Definition ctor (uninit : t) : t := internal_memset_0 uninit.

(** [void Clear()] *)
Definition Clear (this : t) : M t :=
  (InternalFree (module this) ;;
   InternalFree (function this) ;;
   InternalFree (file this) ;;
   ret (internal_memset_0 this))%mem.

(** [void FillAddressAndModuleInfo(uptr addr, const char *mod_name,
                                   uptr mod_offset)] *)
Definition FillAddressAndModuleInfo
    (this : t) (addr : uptr) (mod_name : ptr) (mod_offset : uptr) : M t :=
  (let this1 :=
     {| address := addr; module := module this;
        module_offset := module_offset this; function := function this;
        file := file this; line := line this; column := column this |} in
   p <- internal_strdup mod_name ;;
   let this2 :=
     {| address := address this1; module := p;
        module_offset := module_offset this1; function := function this1;
        file := file this1; line := line this1; column := column this1 |} in
   ret {| address := address this2; module := module this2;
          module_offset := mod_offset; function := function this2;
          file := file this2; line := line this2;
          column := column this2 |})%mem.

End AddressInfo.

(** The strings of a record are its own: each string field is null or a live
    block of the internal allocator, and no block is held by two fields. *)
Definition freeable (m : Mem) (p : ptr) : bool :=
  (p =? NULL) ||
  match m !! p with
  | Some b => internal b
  | None => false
  end.

Definition unshared (p q : ptr) : bool :=
  (p =? NULL) || (q =? NULL) || negb (p =? q).

Definition owns_strings (m : Mem) (a : AddressInfo.t) : bool :=
  freeable m (AddressInfo.module a) &&
  freeable m (AddressInfo.function a) &&
  freeable m (AddressInfo.file a) &&
  unshared (AddressInfo.module a) (AddressInfo.function a) &&
  unshared (AddressInfo.module a) (AddressInfo.file a) &&
  unshared (AddressInfo.function a) (AddressInfo.file a).

(** The memory once the block at [p] is given back; null gives back
    nothing. *)
Definition release (p : ptr) (m : Mem) : Mem :=
  if p =? NULL then m else delete p m.

(** The memory once the three strings of a record are given back, in the
    order [Clear] frees them. *)
Definition release_strings (a : AddressInfo.t) (m : Mem) : Mem :=
  release (AddressInfo.file a)
    (release (AddressInfo.function a)
       (release (AddressInfo.module a) m)).

(** ** struct DataInfo *)

Module DataInfo.

Record t : Type := mk {
  address : uptr;
  module : ptr;
  module_offset : uptr;
  name : ptr;
  start : uptr;
  size : uptr
}.

End DataInfo.

(** ** class Symbolizer: the virtual methods' default bodies *)

Module Symbolizer.

(** An object whose dynamic type is [Symbolizer] itself.  The class has no
    non-static data member, so such an object carries no state besides its
    dynamic type. *)
Inductive t : Type := Base.

(** [virtual uptr SymbolizeCode(uptr address, AddressInfo *frames,
                                uptr max_frames)]: the count returned and
    the [frames] array after the call. *)
Definition SymbolizeCode (this : t) (address : uptr)
    (frames : list AddressInfo.t) (max_frames : uptr)
    : uptr * list AddressInfo.t :=
  (0, frames).

(** [virtual bool SymbolizeData(uptr address, DataInfo *info)]: the flag
    returned and [*info] after the call. *)
Definition SymbolizeData (this : t) (address : uptr) (info : DataInfo.t)
    : bool * DataInfo.t :=
  (false, info).

(** [virtual bool IsAvailable()] *)
Definition IsAvailable (this : t) : bool := false.

(** [virtual bool IsExternalAvailable()] *)
Definition IsExternalAvailable (this : t) : bool := false.

(** [virtual void Flush()] *)
Definition Flush (this : t) : t := this.

(** [virtual const char *Demangle(const char *name)] *)
Definition Demangle (this : t) (name : ptr) : ptr := name.

(** [virtual void PrepareForSandboxing()] *)
Definition PrepareForSandboxing (this : t) : t := this.

(** One call of a virtual method on an object, with its arguments. *)
Inductive call : Type :=
| CallSymbolizeCode (address : uptr) (frames : list AddressInfo.t)
                    (max_frames : uptr)
| CallSymbolizeData (address : uptr) (info : DataInfo.t)
| CallIsAvailable
| CallIsExternalAvailable
| CallFlush
| CallDemangle (name : ptr)
| CallPrepareForSandboxing.

(** The object after one call.  The bodies of the value-returning methods
    do not assign to [this]. *)
Definition after (this : t) (c : call) : t :=
  match c with
  | CallFlush => Flush this
  | CallPrepareForSandboxing => PrepareForSandboxing this
  | CallSymbolizeCode _ _ _ | CallSymbolizeData _ _
  | CallIsAvailable | CallIsExternalAvailable | CallDemangle _ => this
  end.

(** The object after a sequence of calls, oldest first. *)
Definition after_all (this : t) (cs : list call) : t :=
  fold_left after cs this.

End Symbolizer.

(** ** class Symbolizer: the static lifecycle functions

    The header only declares [Get], [GetOrNull], [GetOrInit], [Init],
    [Disable], [PlatformInit] and [CreateAndStore]; their bodies are in
    sanitizer_symbolizer.cc and the platform files, which are not part of the
    sources at hand.  The definitions of this module follow the design
    document. *)

Module Lifecycle.

(** Modelled from the spec: the two variants of a backend, "internal
    debug-info backend" and "external-process backend"; the latter is
    rooted at a helper path (null: found on the search path). *)
Inductive Backend : Type :=
| InternalDebugInfo
| ExternalProcess (path : ptr).

(** Modelled from the spec: a constructed symbolizer is the list of the
    backends attached to it, in priority order. *)
Record Instance : Type := { backends : list Backend }.

(** Modelled from the spec: the process-wide state.  [symbolizer_] is the
    static [atomic_uintptr_t] of the header (the address of the instance, 0
    when there is none), [symbolizer_allocator_] the objects living in the
    static allocator of that name, and [helpers] the helper processes
    spawned so far, by path. *)
Record Statics : Type := {
  symbolizer_ : uptr;
  symbolizer_allocator_ : gmap N Instance;
  helpers : list ptr
}.

Definition alloc_addr (st : Statics) : uptr :=
  fresh ({[NULL]} ∪ dom (symbolizer_allocator_ st)).

(** The helper processes the external-process backends of [bs] own. *)
Definition helper_paths (bs : list Backend) : list ptr :=
  flat_map (fun b => match b with
                     | ExternalProcess path => [path]
                     | InternalDebugInfo => []
                     end) bs.

(** Modelled from the spec: a new instance with the backends [bs] attached,
    allocated "from the arena allocator"; the helper of an
    external-process backend is spawned "at attach time". *)
Definition construct (bs : list Backend) (st : Statics) : uptr * Statics :=
  let p := alloc_addr st in
  (p, {| symbolizer_ := symbolizer_ st;
         symbolizer_allocator_ :=
           <[p := {| backends := bs |}]> (symbolizer_allocator_ st);
         helpers := helpers st ++ helper_paths bs |}).

(** Modelled from the spec: the store to the atomic pointer. *)
Definition store (p : uptr) (st : Statics) : Statics :=
  {| symbolizer_ := p;
     symbolizer_allocator_ := symbolizer_allocator_ st;
     helpers := helpers st |}.

Section Platform.

(** The "platform-appropriate backends", given the optional path to the
    external helper. *)
Variable platform_backends : ptr -> list Backend.

(** Modelled from the spec: [PlatformInit] "constructs one, attaches
    platform-appropriate backends (optionally including an
    external-process backend rooted at the given path, or discovered via
    the executable search path)". *)
Definition PlatformInit (path_to_external : ptr) (st : Statics)
    : uptr * Statics :=
  construct (platform_backends path_to_external) st.

(** Modelled from the spec and the header's comment: "Create a symbolizer
    and store it to symbolizer_ without checking if one already
    exists." *)
Definition CreateAndStore (path_to_external : ptr) (st : Statics)
    : uptr * Statics :=
  let '(p, st') := PlatformInit path_to_external st in
  (p, store p st').

(** Modelled from the spec: [Init] "if no instance exists, constructs
    one, attaches platform-appropriate backends [...] and stores it.  If
    an instance already exists, returns it unchanged". *)
Definition Init (path_to_external : ptr) (st : Statics)
    : uptr * Statics :=
  if symbolizer_ st =? NULL
  then CreateAndStore path_to_external st
  else (symbolizer_ st, st).

End Platform.

(** Modelled from the spec: [Disable] follows the "same idempotency rule,
    but constructs an instance with zero backends attached". *)
Definition Disable (st : Statics) : uptr * Statics :=
  if symbolizer_ st =? NULL
  then let '(p, st') := construct [] st in (p, store p st')
  else (symbolizer_ st, st).

(** Modelled from the spec: [GetOrNull] "returns the instance if
    initialized, else a null indicator; never blocks, never
    initializes". *)
Definition GetOrNull (st : Statics) : uptr := symbolizer_ st.

(** The state of a process that has not touched the symbolizer yet. *)
Definition startup : Statics :=
  {| symbolizer_ := NULL; symbolizer_allocator_ := ∅; helpers := [] |}.

End Lifecycle.

(** ** Concrete inputs

    The scenario of the design document: address [0x401000] in module "app"
    at offset [0x1000], function "main", file "main.c", line 10. *)

(** "app" and the empty string belong to the caller; "main" and "main.c"
    are blocks of the internal allocator. *)
Definition example_mem : Mem :=
  {[ 16 := Block "app" false; 32 := Block "main" true;
     48 := Block "" false; 64 := Block "main.c" true ]}.

(** A frame whose function and file are resolved and whose module is not
    filled in yet. *)
Definition example_frame : AddressInfo.t :=
  AddressInfo.mk 4198400 NULL 0 32 64 10 0.

Definition example_platform (path : ptr) : list Lifecycle.Backend :=
  [Lifecycle.InternalDebugInfo; Lifecycle.ExternalProcess path].

(** The same frame once its module is filled in with a copy of "app" at
    address 80, and the memory holding that copy. *)
Definition example_mem_filled : Mem :=
  <[80 := Block "app" true]> example_mem.

Definition example_filled : AddressInfo.t :=
  AddressInfo.mk 4198400 80 4096 32 64 10 0.

(** A record that holds the block of "main" both as module and as
    function. *)
Definition example_shared : AddressInfo.t :=
  AddressInfo.mk 1 32 3 32 NULL 6 7.

(** * Properties *)

(** ** The memory model *)

Lemma InternalFree_NULL (m : Mem) : InternalFree NULL m = Some (tt, m).
Proof. reflexivity. Qed.

Lemma InternalFree_spec (p : ptr) (m : Mem) :
  InternalFree p m = if freeable m p then Some (tt, release p m) else None.
Proof.
  unfold InternalFree, freeable, release.
  destruct (p =? NULL); simpl; [reflexivity|].
  destruct (m !! p) as [b|]; [|reflexivity].
  destruct (internal b); reflexivity.
Qed.

(** Once [p] is given back, [q] can still be freed exactly when it could
    before and is not the block just released. *)
Lemma freeable_release (p q : ptr) (m : Mem) :
  freeable (release p m) q = freeable m q && unshared p q.
Proof.
  unfold freeable, release, unshared.
  destruct (N.eqb_spec p NULL) as [Hp|Hp]; simpl.
  { by rewrite andb_true_r. }
  destruct (N.eqb_spec q NULL) as [Hq|Hq]; simpl; [reflexivity|].
  destruct (N.eqb_spec p q) as [Hpq|Hpq]; simpl.
  - subst q. rewrite lookup_delete_eq. by rewrite andb_false_r.
  - rewrite lookup_delete_ne by done. by rewrite andb_true_r.
Qed.

Lemma InternalAlloc_addr_fresh (m : Mem) :
  InternalAlloc_addr m ≠ NULL ∧ m !! InternalAlloc_addr m = None.
Proof.
  unfold InternalAlloc_addr.
  pose proof (is_fresh ({[NULL]} ∪ dom m)) as Hfresh.
  split.
  - intros Heq. rewrite Heq in Hfresh. set_solver.
  - apply not_elem_of_dom. set_solver.
Qed.

Lemma read_string_Some (m : Mem) (p : ptr) (s : string) :
  read_string m p = Some s ->
  p ≠ NULL ∧ ∃ b, m !! p = Some b ∧ contents b = s.
Proof.
  unfold read_string. destruct (N.eqb_spec p NULL) as [Hp|Hp]; [done|].
  destruct (m !! p) as [b|]; simpl; [|done].
  intros [= <-]. eauto.
Qed.

Lemma read_string_insert (m : Mem) (p : ptr) (s : string) (i : bool) :
  p ≠ NULL -> read_string (<[p := Block s i]> m) p = Some s.
Proof.
  intros Hp. unfold read_string.
  destruct (N.eqb_spec p NULL); [done|].
  by rewrite lookup_insert_eq.
Qed.

Lemma read_string_insert_ne (m : Mem) (p q : ptr) (b : block) :
  p ≠ q -> read_string (<[p := b]> m) q = read_string m q.
Proof.
  intros Hpq. unfold read_string. by rewrite lookup_insert_ne.
Qed.

(** ** AddressInfo *)

(** [Clear] runs to its end exactly on the records that own their strings;
    it then leaves the all-zero record and gives the strings back. *)
Lemma Clear_spec (a : AddressInfo.t) (m : Mem) :
  AddressInfo.Clear a m =
  if owns_strings m a
  then Some (AddressInfo.mk 0 NULL 0 NULL NULL 0 0, release_strings a m)
  else None.
Proof.
  unfold AddressInfo.Clear, bind, owns_strings, release_strings.
  rewrite InternalFree_spec.
  destruct (freeable m (AddressInfo.module a)); simpl; [|reflexivity].
  rewrite InternalFree_spec, freeable_release.
  destruct (freeable m (AddressInfo.function a)); simpl; [|reflexivity].
  destruct (unshared (AddressInfo.module a) (AddressInfo.function a));
    simpl; [|by destruct (freeable m (AddressInfo.file a))].
  rewrite InternalFree_spec, !freeable_release.
  destruct (freeable m (AddressInfo.file a)); simpl; [|reflexivity].
  destruct (unshared (AddressInfo.module a) (AddressInfo.file a));
    simpl; [|reflexivity].
  destruct (unshared (AddressInfo.function a) (AddressInfo.file a));
    reflexivity.
Qed.

(** Clearing the all-zero record passes only null pointers to
    [InternalFree]: it succeeds in every memory and releases nothing. *)
Lemma Clear_zero (m : Mem) :
  AddressInfo.Clear (AddressInfo.mk 0 NULL 0 NULL NULL 0 0) m =
  Some (AddressInfo.mk 0 NULL 0 NULL NULL 0 0, m).
Proof. reflexivity. Qed.

(** Whenever [Clear] returns, the record is all zero. *)
Lemma Clear_returns_zero (a a' : AddressInfo.t) (m m' : Mem) :
  AddressInfo.Clear a m = Some (a', m') ->
  a' = AddressInfo.mk 0 NULL 0 NULL NULL 0 0.
Proof.
  rewrite Clear_spec. destruct (owns_strings m a); [|done].
  by intros [= <- _].
Qed.

Lemma release_lookup_eq (p : ptr) (m : Mem) :
  p ≠ NULL -> release p m !! p = None.
Proof.
  intros Hp. unfold release.
  destruct (N.eqb_spec p NULL); [done|]. apply lookup_delete_eq.
Qed.

Lemma release_lookup_None (p q : ptr) (m : Mem) :
  m !! q = None -> release p m !! q = None.
Proof.
  intros Hq. unfold release. destruct (p =? NULL); [done|].
  rewrite lookup_delete_None. by right.
Qed.

(** A block released by [Clear] is no longer live. *)
Lemma release_strings_gone (a : AddressInfo.t) (m : Mem) (p : ptr) :
  p ≠ NULL ->
  p = AddressInfo.module a ∨ p = AddressInfo.function a ∨
    p = AddressInfo.file a ->
  release_strings a m !! p = None.
Proof.
  intros Hp Hin. unfold release_strings.
  destruct Hin as [Hin | [Hin | Hin]]; subst p.
  - do 2 apply release_lookup_None. by apply release_lookup_eq.
  - apply release_lookup_None. by apply release_lookup_eq.
  - by apply release_lookup_eq.
Qed.

(** A record holding one block in two fields makes [Clear] free it twice,
    which the allocator refuses. *)
Example Clear_double_free :
  AddressInfo.Clear (AddressInfo.mk 1 32 3 32 0 6 7) example_mem = None.
Proof. reflexivity. Qed.

(** C2. For every [AddressInfo] record whose strings are its own (each null
    or a live block of the internal allocator, none shared between two
    fields), [Clear()] returns, leaves every field zero/null and gives the
    strings back; a second [Clear()] on the same record then returns as well,
    leaves the record and the memory as they are: it passes only null
    pointers to [InternalFree], so nothing is freed twice. *)
Theorem Clear_resets_and_repeats (a : AddressInfo.t) (m : Mem) :
  owns_strings m a = true ->
  ∃ (a' : AddressInfo.t) (m' : Mem),
    AddressInfo.Clear a m = Some (a', m') ∧
    a' = AddressInfo.mk 0 NULL 0 NULL NULL 0 0 ∧
    m' = release_strings a m ∧
    AddressInfo.Clear a' m' = Some (a', m').
Proof.
  intros Howns.
  exists (AddressInfo.mk 0 NULL 0 NULL NULL 0 0), (release_strings a m).
  rewrite Clear_spec, Howns. auto using Clear_zero.
Qed.

Lemma Clear_resets_and_repeats_witness :
  owns_strings example_mem example_frame = true ∧
  ∃ (a' : AddressInfo.t) (m' : Mem),
    AddressInfo.Clear example_frame example_mem = Some (a', m') ∧
    a' = AddressInfo.mk 0 NULL 0 NULL NULL 0 0 ∧
    m' = release_strings example_frame example_mem ∧
    AddressInfo.Clear a' m' = Some (a', m').
Proof.
  split.
  - reflexivity.
  - apply (Clear_resets_and_repeats example_frame example_mem). reflexivity.
Defined.

(** C10. A default-constructed [AddressInfo] has every field zero/null,
    whatever the object held before the constructor ran; [Clear()] on such a
    never-filled record returns in every memory and releases nothing, as all
    three pointers it frees are null. *)
Theorem ctor_zero_and_Clear_safe (uninit : AddressInfo.t) (m : Mem) :
  AddressInfo.ctor uninit = AddressInfo.mk 0 NULL 0 NULL NULL 0 0 ∧
  AddressInfo.module (AddressInfo.ctor uninit) = NULL ∧
  AddressInfo.function (AddressInfo.ctor uninit) = NULL ∧
  AddressInfo.file (AddressInfo.ctor uninit) = NULL ∧
  AddressInfo.Clear (AddressInfo.ctor uninit) m =
    Some (AddressInfo.ctor uninit, m).
Proof.
  unfold AddressInfo.ctor, AddressInfo.internal_memset_0; simpl.
  repeat split.
Qed.

(** C9. For every [AddressInfo] and every [(addr, mod_name, mod_offset)]
    where [mod_name] points to a string [s], [FillAddressAndModuleInfo]
    returns with [address = addr], [module_offset = mod_offset] and [module]
    pointing to a newly allocated block that holds [s]: the pointer is not
    null, is not [mod_name] and was not live before the call.  The fields
    [function], [file], [line] and [column] keep their values, and the
    caller's string is still there. *)
Theorem FillAddressAndModuleInfo_effect
    (this : AddressInfo.t) (addr mod_name mod_offset : N)
    (m : Mem) (s : string) :
  read_string m mod_name = Some s ->
  ∃ p : ptr,
    AddressInfo.FillAddressAndModuleInfo this addr mod_name mod_offset m =
      Some (AddressInfo.mk addr p mod_offset
              (AddressInfo.function this) (AddressInfo.file this)
              (AddressInfo.line this) (AddressInfo.column this),
            <[p := Block s true]> m) ∧
    p ≠ NULL ∧ p ≠ mod_name ∧ m !! p = None ∧
    read_string (<[p := Block s true]> m) p = Some s ∧
    read_string (<[p := Block s true]> m) mod_name = Some s.
Proof.
  intros Hread.
  destruct (InternalAlloc_addr_fresh m) as [Hnull Hfresh].
  destruct (read_string_Some _ _ _ Hread) as (Hname & b & Hb & _).
  assert (InternalAlloc_addr m ≠ mod_name) as Hne by congruence.
  exists (InternalAlloc_addr m).
  unfold AddressInfo.FillAddressAndModuleInfo, bind, internal_strdup, ret.
  rewrite Hread; simpl.
  repeat split; try done.
  - by apply read_string_insert.
  - by rewrite read_string_insert_ne.
Qed.

Lemma FillAddressAndModuleInfo_effect_witness :
  read_string example_mem 16 = Some "app"%string ∧
  ∃ p : ptr,
    AddressInfo.FillAddressAndModuleInfo example_frame 4198400 16 4096
        example_mem =
      Some (AddressInfo.mk 4198400 p 4096
              (AddressInfo.function example_frame)
              (AddressInfo.file example_frame)
              (AddressInfo.line example_frame)
              (AddressInfo.column example_frame),
            <[p := Block "app" true]> example_mem) ∧
    p ≠ NULL ∧ p ≠ 16 ∧ example_mem !! p = None ∧
    read_string (<[p := Block "app" true]> example_mem) p =
      Some "app"%string ∧
    read_string (<[p := Block "app" true]> example_mem) 16 =
      Some "app"%string.
Proof.
  split.
  - reflexivity.
  - apply (FillAddressAndModuleInfo_effect example_frame 4198400 16 4096
             example_mem "app"%string).
    reflexivity.
Defined.

(** On a pointer that cannot be read (null, say) the [internal_strdup] of
    [FillAddressAndModuleInfo] crashes. *)
Example FillAddressAndModuleInfo_null :
  AddressInfo.FillAddressAndModuleInfo example_frame 4198400 NULL 4096
    example_mem = None.
Proof. reflexivity. Qed.

(** ** The Symbolizer base class *)

(** C1. For the default [Symbolizer] (the base class, with no backend), for
    every address and every output buffer, [SymbolizeCode] returns 0,
    [SymbolizeData] returns false and [IsAvailable()] returns false; the
    output buffers are left as they were. *)
Theorem base_symbolizer_inert
    (this : Symbolizer.t) (address max_frames : N)
    (frames : list AddressInfo.t) (info : DataInfo.t) :
  Symbolizer.SymbolizeCode this address frames max_frames = (0, frames) ∧
  Symbolizer.SymbolizeData this address info = (false, info) ∧
  Symbolizer.IsAvailable this = false.
Proof. repeat split. Qed.

(** The base class never reports a data symbol: no [DataInfo] is ever filled
    by the code of this header. *)
Lemma SymbolizeData_never_finds
    (this : Symbolizer.t) (address : N) (info : DataInfo.t) :
  fst (Symbolizer.SymbolizeData this address info) = false.
Proof. reflexivity. Qed.

(** C3. For every input string (a non-null pointer [name] to some string
    [s], the empty string included), [Demangle(name)] is a value, not a
    computation that can fail: it is [name] itself, so it is not null and
    still points to [s]. *)
Theorem Demangle_returns_input
    (this : Symbolizer.t) (name : ptr) (m : Mem) (s : string) :
  read_string m name = Some s ->
  Symbolizer.Demangle this name = name ∧
  Symbolizer.Demangle this name ≠ NULL ∧
  read_string m (Symbolizer.Demangle this name) = Some s.
Proof.
  intros Hread. destruct (read_string_Some _ _ _ Hread) as [Hname _].
  unfold Symbolizer.Demangle. auto.
Qed.

Lemma Demangle_returns_input_witness :
  read_string example_mem 48 = Some ""%string ∧
  Symbolizer.Demangle Symbolizer.Base 48 = 48 ∧
  Symbolizer.Demangle Symbolizer.Base 48 ≠ NULL ∧
  read_string example_mem (Symbolizer.Demangle Symbolizer.Base 48) =
    Some ""%string.
Proof.
  split.
  - reflexivity.
  - apply (Demangle_returns_input Symbolizer.Base 48 example_mem ""%string).
    reflexivity.
Defined.

(** C4. For every address and every [max_frames], the count [SymbolizeCode]
    returns is at most [max_frames], and the [frames] array keeps its length
    and every entry from index count on: at most [max_frames] entries are
    filled.  The base class returns 0, the "unresolvable" answer. *)
Theorem SymbolizeCode_at_most_max_frames
    (this : Symbolizer.t) (address max_frames : N)
    (frames : list AddressInfo.t) :
  let r := Symbolizer.SymbolizeCode this address frames max_frames in
  fst r <= max_frames ∧
  length (snd r) = length frames ∧
  drop (N.to_nat (fst r)) (snd r) = drop (N.to_nat (fst r)) frames.
Proof. simpl. repeat split. lia. Qed.

(** C5. After [PrepareForSandboxing()] on a [Symbolizer], and after any
    further calls on it, [IsExternalAvailable()] returns false. *)
Theorem IsExternalAvailable_false_after_PrepareForSandboxing
    (this : Symbolizer.t) (cs : list Symbolizer.call) :
  Symbolizer.IsExternalAvailable
    (Symbolizer.after_all (Symbolizer.PrepareForSandboxing this) cs) = false.
Proof. reflexivity. Qed.

(** ** The lifecycle functions *)

Lemma construct_not_null (bs : list Lifecycle.Backend) (st : Lifecycle.Statics) :
  fst (Lifecycle.construct bs st) ≠ NULL.
Proof.
  unfold Lifecycle.construct, Lifecycle.alloc_addr; simpl.
  pose proof (is_fresh ({[NULL]} ∪ dom (Lifecycle.symbolizer_allocator_ st)))
    as Hfresh.
  intros Heq. rewrite Heq in Hfresh. set_solver.
Qed.

(** The instance [Init] returns is not null and is the one published in
    [symbolizer_]. *)
Lemma Init_stores
    (platform_backends : N -> list Lifecycle.Backend)
    (path : ptr) (st : Lifecycle.Statics) :
  fst (Lifecycle.Init platform_backends path st) ≠ NULL ∧
  Lifecycle.symbolizer_ (snd (Lifecycle.Init platform_backends path st)) =
    fst (Lifecycle.Init platform_backends path st).
Proof.
  unfold Lifecycle.Init.
  destruct (N.eqb_spec (Lifecycle.symbolizer_ st) NULL) as [Hnone|Hsome].
  - unfold Lifecycle.CreateAndStore, Lifecycle.PlatformInit.
    pose proof (construct_not_null (platform_backends path) st) as Hp.
    destruct (Lifecycle.construct (platform_backends path) st) as [p st'].
    simpl in *. auto.
  - simpl. auto.
Qed.

Lemma Disable_stores (st : Lifecycle.Statics) :
  fst (Lifecycle.Disable st) ≠ NULL ∧
  Lifecycle.symbolizer_ (snd (Lifecycle.Disable st)) =
    fst (Lifecycle.Disable st).
Proof.
  unfold Lifecycle.Disable.
  destruct (N.eqb_spec (Lifecycle.symbolizer_ st) NULL) as [Hnone|Hsome].
  - pose proof (construct_not_null [] st) as Hp.
    destruct (Lifecycle.construct [] st) as [p st'].
    simpl in *. auto.
  - simpl. auto.
Qed.

Lemma Init_existing
    (platform_backends : N -> list Lifecycle.Backend)
    (path : ptr) (st : Lifecycle.Statics) :
  Lifecycle.symbolizer_ st ≠ NULL ->
  Lifecycle.Init platform_backends path st = (Lifecycle.symbolizer_ st, st).
Proof.
  intros Hsome. unfold Lifecycle.Init.
  by destruct (N.eqb_spec (Lifecycle.symbolizer_ st) NULL).
Qed.

Lemma Disable_existing (st : Lifecycle.Statics) :
  Lifecycle.symbolizer_ st ≠ NULL ->
  Lifecycle.Disable st = (Lifecycle.symbolizer_ st, st).
Proof.
  intros Hsome. unfold Lifecycle.Disable.
  by destruct (N.eqb_spec (Lifecycle.symbolizer_ st) NULL).
Qed.

(** C6. [Init] and [Disable] are idempotent: if an instance already exists,
    a call (with any path) returns that same instance and leaves the whole
    process state as it was: no instance is constructed, no backend is
    attached, no helper is spawned. *)
Theorem Init_Disable_idempotent
    (platform_backends : N -> list Lifecycle.Backend)
    (path : ptr) (st : Lifecycle.Statics) :
  Lifecycle.symbolizer_ st ≠ NULL ->
  Lifecycle.Init platform_backends path st = (Lifecycle.symbolizer_ st, st) ∧
  Lifecycle.Disable st = (Lifecycle.symbolizer_ st, st).
Proof. auto using Init_existing, Disable_existing. Qed.

Lemma Init_Disable_idempotent_witness :
  let st := snd (Lifecycle.Init example_platform 7 Lifecycle.startup) in
  Lifecycle.symbolizer_ st ≠ NULL ∧
  Lifecycle.Init example_platform 9 st = (Lifecycle.symbolizer_ st, st) ∧
  Lifecycle.Disable st = (Lifecycle.symbolizer_ st, st).
Proof.
  intros st. split.
  - vm_compute. discriminate.
  - apply (Init_Disable_idempotent example_platform 9 st).
    vm_compute. discriminate.
Defined.

(** Calling [Init] or [Disable] and then either of them again, from any
    state, gives the first call's instance and state both times. *)
Corollary Init_Disable_twice
    (platform_backends : N -> list Lifecycle.Backend)
    (path1 path2 : ptr) (st : Lifecycle.Statics) :
  let r1 := Lifecycle.Init platform_backends path1 st in
  let r2 := Lifecycle.Disable st in
  Lifecycle.Init platform_backends path2 (snd r1) = r1 ∧
  Lifecycle.Disable (snd r1) = r1 ∧
  Lifecycle.Init platform_backends path2 (snd r2) = r2 ∧
  Lifecycle.Disable (snd r2) = r2.
Proof.
  intros r1 r2.
  destruct (Init_stores platform_backends path1 st) as [Hn1 Hs1].
  destruct (Disable_stores st) as [Hn2 Hs2].
  fold r1 in Hn1, Hs1. fold r2 in Hn2, Hs2.
  rewrite <- Hs1 in Hn1. rewrite <- Hs2 in Hn2.
  rewrite !Init_existing, !Disable_existing by assumption.
  rewrite Hs1, Hs2. by destruct r1, r2.
Qed.

(** ** How the methods of AddressInfo compose *)

Lemma owns_strings_true (m : Mem) (a : AddressInfo.t) :
  owns_strings m a = true ↔
  freeable m (AddressInfo.module a) = true ∧
  freeable m (AddressInfo.function a) = true ∧
  freeable m (AddressInfo.file a) = true ∧
  unshared (AddressInfo.module a) (AddressInfo.function a) = true ∧
  unshared (AddressInfo.module a) (AddressInfo.file a) = true ∧
  unshared (AddressInfo.function a) (AddressInfo.file a) = true.
Proof. unfold owns_strings. rewrite !andb_true_iff. tauto. Qed.

Lemma freeable_true (m : Mem) (q : ptr) :
  freeable m q = true ↔
  q = NULL ∨ ∃ b, m !! q = Some b ∧ internal b = true.
Proof.
  unfold freeable. destruct (N.eqb_spec q NULL) as [Hq|Hq]; simpl.
  - tauto.
  - destruct (m !! q) as [b|].
    + split; [intros Hint; right; eauto |].
      intros [Hnull | (b' & Hb' & Hint)]; [done | congruence].
    + split; [done |].
      intros [Hnull | (b' & Hb' & Hint)]; done.
Qed.

Lemma unshared_true (p q : ptr) :
  unshared p q = true ↔ p = NULL ∨ q = NULL ∨ p ≠ q.
Proof.
  unfold unshared.
  destruct (N.eqb_spec p NULL), (N.eqb_spec q NULL), (N.eqb_spec p q);
    simpl; split; try tauto; try done;
    intros [?|[?|?]]; done.
Qed.

(** A block that is not live is no string of any record. *)
Lemma unshared_fresh (m : Mem) (p q : ptr) :
  m !! p = None -> freeable m q = true -> unshared p q = true.
Proof.
  intros Hp [Hq | (b & Hb & _)]%freeable_true; apply unshared_true.
  - auto.
  - right; right. congruence.
Qed.

Lemma freeable_insert (m : Mem) (p q : ptr) (b : block) :
  m !! p = None -> freeable m q = true -> freeable (<[p := b]> m) q = true.
Proof.
  intros Hp [Hq | (b' & Hb' & Hint)]%freeable_true; apply freeable_true.
  - auto.
  - right. exists b'. rewrite lookup_insert_ne by congruence. auto.
Qed.

Lemma freeable_insert_eq (m : Mem) (p : ptr) (s : string) :
  freeable (<[p := Block s true]> m) p = true.
Proof.
  apply freeable_true. right. exists (Block s true).
  by rewrite lookup_insert_eq.
Qed.

Lemma release_insert_fresh (m : Mem) (p : ptr) (b : block) :
  p ≠ NULL -> m !! p = None -> release p (<[p := b]> m) = m.
Proof.
  intros Hp Hfresh. unfold release.
  destruct (N.eqb_spec p NULL); [done|]. by apply delete_insert_id.
Qed.

Lemma release_lookup_ne (p q : ptr) (m : Mem) :
  p ≠ q -> release p m !! q = m !! q.
Proof.
  intros Hpq. unfold release. destruct (p =? NULL); [done|].
  by apply lookup_delete_ne.
Qed.

(** What [FillAddressAndModuleInfo] returns when [mod_name] can be read. *)
Lemma Fill_spec (this : AddressInfo.t) (addr mod_name mod_offset : N)
    (m : Mem) (s : string) :
  read_string m mod_name = Some s ->
  AddressInfo.FillAddressAndModuleInfo this addr mod_name mod_offset m =
    Some (AddressInfo.mk addr (InternalAlloc_addr m) mod_offset
            (AddressInfo.function this) (AddressInfo.file this)
            (AddressInfo.line this) (AddressInfo.column this),
          <[InternalAlloc_addr m := Block s true]> m).
Proof.
  intros Hread.
  unfold AddressInfo.FillAddressAndModuleInfo, bind, internal_strdup, ret.
  by rewrite Hread.
Qed.

(** The record [FillAddressAndModuleInfo] leaves owns its strings if the
    function and file of the record it started from were its own. *)
Lemma owns_strings_filled (this : AddressInfo.t) (addr mod_offset : N)
    (m : Mem) (s : string) :
  owns_strings m this = true ->
  owns_strings (<[InternalAlloc_addr m := Block s true]> m)
    (AddressInfo.mk addr (InternalAlloc_addr m) mod_offset
       (AddressInfo.function this) (AddressInfo.file this)
       (AddressInfo.line this) (AddressInfo.column this)) = true.
Proof.
  intros (_ & Hfn & Hfi & _ & _ & Hu)%owns_strings_true.
  destruct (InternalAlloc_addr_fresh m) as [_ Hfresh].
  apply owns_strings_true; simpl.
  eauto 10 using freeable_insert_eq, freeable_insert, unshared_fresh.
Qed.

(** A record whose only string is its module owns its strings as soon as
    the module can be freed. *)
Lemma owns_strings_module_only (m : Mem) (addr p off : N) (li co : Z) :
  freeable m p = true ->
  owns_strings m (AddressInfo.mk addr p off NULL NULL li co) = true.
Proof.
  intros Hp. apply owns_strings_true; simpl.
  repeat split; try done; apply unshared_true; auto.
Qed.

(** X1. Fill, then Clear, gives back what Fill allocated: on a record that
    owns its strings and has no module yet, [FillAddressAndModuleInfo]
    followed by [Clear] returns the all-zero record and leaves the memory
    that [Clear] alone would have left; the copy of the module name is not
    leaked. *)
Theorem Fill_then_Clear_releases_copy
    (this : AddressInfo.t) (addr mod_name mod_offset : N)
    (m : Mem) (s : string) :
  owns_strings m this = true ->
  AddressInfo.module this = NULL ->
  read_string m mod_name = Some s ->
  ∃ (a1 : AddressInfo.t) (m1 : Mem),
    AddressInfo.FillAddressAndModuleInfo this addr mod_name mod_offset m =
      Some (a1, m1) ∧
    AddressInfo.Clear a1 m1 =
      Some (AddressInfo.mk 0 NULL 0 NULL NULL 0 0, release_strings this m).
Proof.
  intros Howns Hmod Hread.
  destruct (InternalAlloc_addr_fresh m) as [Hnull Hfresh].
  eexists _, _. split; [by apply Fill_spec|].
  rewrite Clear_spec, owns_strings_filled by done.
  unfold release_strings; simpl.
  rewrite release_insert_fresh by done.
  by rewrite Hmod.
Qed.

Lemma Fill_then_Clear_releases_copy_witness :
  owns_strings example_mem example_frame = true ∧
  AddressInfo.module example_frame = NULL ∧
  read_string example_mem 16 = Some "app"%string ∧
  ∃ (a1 : AddressInfo.t) (m1 : Mem),
    AddressInfo.FillAddressAndModuleInfo example_frame 4198400 16 4096
        example_mem = Some (a1, m1) ∧
    AddressInfo.Clear a1 m1 =
      Some (AddressInfo.mk 0 NULL 0 NULL NULL 0 0,
            release_strings example_frame example_mem).
Proof.
  repeat split; try reflexivity.
  apply (Fill_then_Clear_releases_copy example_frame 4198400 16 4096
           example_mem "app"%string); reflexivity.
Defined.

(** X2. [FillAddressAndModuleInfo] keeps the ownership invariant: if the
    record owns its strings before the call, the record after the call owns
    its strings in the memory after the call, so [Clear] can be called on
    it. *)
Theorem Fill_keeps_ownership
    (this : AddressInfo.t) (addr mod_name mod_offset : N)
    (m : Mem) (s : string) :
  owns_strings m this = true ->
  read_string m mod_name = Some s ->
  ∃ (a1 : AddressInfo.t) (m1 : Mem),
    AddressInfo.FillAddressAndModuleInfo this addr mod_name mod_offset m =
      Some (a1, m1) ∧
    owns_strings m1 a1 = true.
Proof.
  intros Howns Hread. eexists _, _.
  split; [by apply Fill_spec | by apply owns_strings_filled].
Qed.

Lemma Fill_keeps_ownership_witness :
  owns_strings example_mem_filled example_filled = true ∧
  read_string example_mem_filled 16 = Some "app"%string ∧
  ∃ (a1 : AddressInfo.t) (m1 : Mem),
    AddressInfo.FillAddressAndModuleInfo example_filled 4198401 16 4097
        example_mem_filled = Some (a1, m1) ∧
    owns_strings m1 a1 = true.
Proof.
  repeat split; try reflexivity.
  apply (Fill_keeps_ownership example_filled 4198401 16 4097
           example_mem_filled "app"%string); reflexivity.
Defined.

(** X3. [FillAddressAndModuleInfo] does not free the module string the
    record already holds: filling a record whose module is set puts a
    different pointer in [module], and the old block is still live, with its
    contents, after the refilled record is cleared. *)
Theorem Fill_again_leaks_old_module
    (this : AddressInfo.t) (addr mod_name mod_offset : N)
    (m : Mem) (s : string) :
  owns_strings m this = true ->
  AddressInfo.module this ≠ NULL ->
  read_string m mod_name = Some s ->
  ∃ (a1 : AddressInfo.t) (m1 m2 : Mem),
    AddressInfo.FillAddressAndModuleInfo this addr mod_name mod_offset m =
      Some (a1, m1) ∧
    AddressInfo.module a1 ≠ AddressInfo.module this ∧
    AddressInfo.Clear a1 m1 =
      Some (AddressInfo.mk 0 NULL 0 NULL NULL 0 0, m2) ∧
    is_Some (m2 !! AddressInfo.module this) ∧
    m2 !! AddressInfo.module this = m !! AddressInfo.module this.
Proof.
  intros Howns Hmod Hread.
  destruct (InternalAlloc_addr_fresh m) as [Hnull Hfresh].
  pose proof Howns as (Hmo & _ & _ & Hu1 & Hu2 & _)%owns_strings_true.
  apply freeable_true in Hmo as [Hmo | (b & Hb & _)]; [done|].
  apply unshared_true in Hu1, Hu2.
  assert (release_strings
            (AddressInfo.mk addr (InternalAlloc_addr m) mod_offset
               (AddressInfo.function this) (AddressInfo.file this)
               (AddressInfo.line this) (AddressInfo.column this))
            (<[InternalAlloc_addr m := Block s true]> m)
          !! AddressInfo.module this = m !! AddressInfo.module this) as Hkept.
  { unfold release_strings; simpl.
    rewrite release_insert_fresh by done.
    rewrite !release_lookup_ne; [done | |]; intros Heq;
      rewrite Heq in *; tauto. }
  eexists _, _, _. split; [by apply Fill_spec|]. simpl.
  split; [congruence|].
  rewrite Clear_spec, owns_strings_filled by done.
  split; [reflexivity|].
  rewrite Hkept, Hb. eauto.
Qed.

Lemma Fill_again_leaks_old_module_witness :
  owns_strings example_mem_filled example_filled = true ∧
  AddressInfo.module example_filled ≠ NULL ∧
  read_string example_mem_filled 16 = Some "app"%string ∧
  ∃ (a1 : AddressInfo.t) (m1 m2 : Mem),
    AddressInfo.FillAddressAndModuleInfo example_filled 4198401 16 4097
        example_mem_filled = Some (a1, m1) ∧
    AddressInfo.module a1 ≠ AddressInfo.module example_filled ∧
    AddressInfo.Clear a1 m1 =
      Some (AddressInfo.mk 0 NULL 0 NULL NULL 0 0, m2) ∧
    is_Some (m2 !! AddressInfo.module example_filled) ∧
    m2 !! AddressInfo.module example_filled =
      example_mem_filled !! AddressInfo.module example_filled.
Proof.
  split; [reflexivity|]. split; [vm_compute; discriminate|].
  split; [reflexivity|].
  apply (Fill_again_leaks_old_module example_filled 4198401 16 4097
           example_mem_filled "app"%string).
  - reflexivity.
  - vm_compute; discriminate.
  - reflexivity.
Defined.

(** X4. [Clear] touches no block but the record's own: when it returns,
    every address that is none of [module], [function] and [file] holds what
    it held before. *)
Theorem Clear_leaves_other_blocks
    (a a' : AddressInfo.t) (m m' : Mem) (q : ptr) :
  AddressInfo.Clear a m = Some (a', m') ->
  q ≠ AddressInfo.module a ->
  q ≠ AddressInfo.function a ->
  q ≠ AddressInfo.file a ->
  m' !! q = m !! q.
Proof.
  rewrite Clear_spec. destruct (owns_strings m a); [|done].
  intros [= _ <-] Hmo Hfn Hfi. unfold release_strings.
  by rewrite !release_lookup_ne.
Qed.

Lemma Clear_leaves_other_blocks_witness :
  AddressInfo.Clear example_filled example_mem_filled =
    Some (AddressInfo.mk 0 NULL 0 NULL NULL 0 0,
          release_strings example_filled example_mem_filled) ∧
  16 ≠ AddressInfo.module example_filled ∧
  16 ≠ AddressInfo.function example_filled ∧
  16 ≠ AddressInfo.file example_filled ∧
  release_strings example_filled example_mem_filled !! 16 =
    example_mem_filled !! 16.
Proof.
  split; [reflexivity|].
  split; [vm_compute; discriminate|].
  split; [vm_compute; discriminate|].
  split; [vm_compute; discriminate|].
  apply (Clear_leaves_other_blocks example_filled
           (AddressInfo.mk 0 NULL 0 NULL NULL 0 0) example_mem_filled).
  - reflexivity.
  - vm_compute; discriminate.
  - vm_compute; discriminate.
  - vm_compute; discriminate.
Defined.

(** X5. [Clear] releases every string of the record: when it returns, each
    non-null pointer that was in [module], [function] or [file] is no longer
    live and can no longer be read. *)
Theorem Clear_releases_strings
    (a a' : AddressInfo.t) (m m' : Mem) (p : ptr) :
  AddressInfo.Clear a m = Some (a', m') ->
  p ≠ NULL ->
  p = AddressInfo.module a ∨ p = AddressInfo.function a ∨
    p = AddressInfo.file a ->
  m' !! p = None ∧ read_string m' p = None.
Proof.
  rewrite Clear_spec. destruct (owns_strings m a); [|done].
  intros [= _ <-] Hp Hin.
  pose proof (release_strings_gone a m p Hp Hin) as Hgone.
  split; [done|]. unfold read_string.
  destruct (p =? NULL); [done|]. by rewrite Hgone.
Qed.

Lemma Clear_releases_strings_witness :
  AddressInfo.Clear example_filled example_mem_filled =
    Some (AddressInfo.mk 0 NULL 0 NULL NULL 0 0,
          release_strings example_filled example_mem_filled) ∧
  80 ≠ NULL ∧
  (80 = AddressInfo.module example_filled ∨
   80 = AddressInfo.function example_filled ∨
   80 = AddressInfo.file example_filled) ∧
  release_strings example_filled example_mem_filled !! 80 = None ∧
  read_string (release_strings example_filled example_mem_filled) 80 = None.
Proof.
  split; [reflexivity|].
  split; [vm_compute; discriminate|].
  split; [left; reflexivity|].
  apply (Clear_releases_strings example_filled
           (AddressInfo.mk 0 NULL 0 NULL NULL 0 0) example_mem_filled).
  - reflexivity.
  - vm_compute; discriminate.
  - left; reflexivity.
Defined.







(** X10. Two frames filled from the same module name hold two separate
    copies: the module pointers differ, and clearing the first frame and then
    the second both return and leave the memory exactly as it was before the
    two fills. *)
Theorem Fill_two_frames_separate_copies
    (u1 u2 : AddressInfo.t) (addr1 addr2 mod_name off1 off2 : N)
    (m : Mem) (s : string) :
  read_string m mod_name = Some s ->
  ∃ (a1 a2 : AddressInfo.t) (m1 m2 m3 : Mem),
    AddressInfo.FillAddressAndModuleInfo (AddressInfo.ctor u1)
        addr1 mod_name off1 m = Some (a1, m1) ∧
    AddressInfo.FillAddressAndModuleInfo (AddressInfo.ctor u2)
        addr2 mod_name off2 m1 = Some (a2, m2) ∧
    AddressInfo.module a1 ≠ AddressInfo.module a2 ∧
    read_string m2 (AddressInfo.module a1) = Some s ∧
    read_string m2 (AddressInfo.module a2) = Some s ∧
    AddressInfo.Clear a1 m2 =
      Some (AddressInfo.mk 0 NULL 0 NULL NULL 0 0, m3) ∧
    AddressInfo.Clear a2 m3 =
      Some (AddressInfo.mk 0 NULL 0 NULL NULL 0 0, m).
Proof.
  intros Hread.
  set (p1 := InternalAlloc_addr m).
  set (m1 := <[p1 := Block s true]> m).
  set (p2 := InternalAlloc_addr m1).
  destruct (InternalAlloc_addr_fresh m) as [Hn1 Hf1].
  destruct (InternalAlloc_addr_fresh m1) as [Hn2 Hf2].
  fold p1 in Hn1, Hf1. fold p2 in Hn2, Hf2.
  assert (p1 ≠ p2) as Hne.
  { intros Heq. rewrite <- Heq in Hf2. unfold m1 in Hf2.
    by rewrite lookup_insert_eq in Hf2. }
  assert (m !! p2 = None) as Hf2'.
  { unfold m1 in Hf2. by rewrite lookup_insert_ne in Hf2. }
  destruct (read_string_Some _ _ _ Hread) as (Hname & b & Hb & _).
  assert (read_string m1 mod_name = Some s) as Hread1.
  { unfold m1. rewrite read_string_insert_ne; [done | congruence]. }
  exists (AddressInfo.mk addr1 p1 off1 NULL NULL 0 0),
         (AddressInfo.mk addr2 p2 off2 NULL NULL 0 0),
         m1, (<[p2 := Block s true]> m1), (<[p2 := Block s true]> m).
  split; [by rewrite (Fill_spec _ _ _ _ _ s)|].
  split; [by rewrite (Fill_spec _ _ _ _ _ s)|].
  simpl. split; [done|].
  split.
  { rewrite read_string_insert_ne by done.
    unfold m1. by apply read_string_insert. }
  split; [by apply read_string_insert|].
  assert (release p1 (<[p2 := Block s true]> m1) = <[p2 := Block s true]> m)
    as Hrel1.
  { unfold release, m1. destruct (N.eqb_spec p1 NULL); [done|].
    rewrite delete_insert_ne by done. by rewrite delete_insert_id. }
  split.
  - rewrite Clear_spec.
    assert (owns_strings (<[p2 := Block s true]> m1)
              (AddressInfo.mk addr1 p1 off1 NULL NULL 0 0) = true) as ->.
    { apply owns_strings_module_only, freeable_true.
      right. exists (Block s true).
      rewrite lookup_insert_ne by done. unfold m1.
      by rewrite lookup_insert_eq. }
    unfold release_strings; simpl. by rewrite Hrel1.
  - rewrite Clear_spec.
    assert (owns_strings (<[p2 := Block s true]> m)
              (AddressInfo.mk addr2 p2 off2 NULL NULL 0 0) = true) as ->.
    { apply owns_strings_module_only, freeable_insert_eq. }
    unfold release_strings; simpl.
    by rewrite release_insert_fresh.
Qed.

Lemma Fill_two_frames_separate_copies_witness :
  read_string example_mem 16 = Some "app"%string ∧
  ∃ (a1 a2 : AddressInfo.t) (m1 m2 m3 : Mem),
    AddressInfo.FillAddressAndModuleInfo (AddressInfo.ctor example_frame)
        4198400 16 4096 example_mem = Some (a1, m1) ∧
    AddressInfo.FillAddressAndModuleInfo (AddressInfo.ctor example_shared)
        4198401 16 4097 m1 = Some (a2, m2) ∧
    AddressInfo.module a1 ≠ AddressInfo.module a2 ∧
    read_string m2 (AddressInfo.module a1) = Some "app"%string ∧
    read_string m2 (AddressInfo.module a2) = Some "app"%string ∧
    AddressInfo.Clear a1 m2 =
      Some (AddressInfo.mk 0 NULL 0 NULL NULL 0 0, m3) ∧
    AddressInfo.Clear a2 m3 =
      Some (AddressInfo.mk 0 NULL 0 NULL NULL 0 0, example_mem).
Proof.
  split; [reflexivity|].
  apply (Fill_two_frames_separate_copies example_frame example_shared
           4198400 4198401 16 4096 4097 example_mem "app"%string).
  reflexivity.
Defined.
